(** * Logger: the per-category logging handle of [shared/Logging/Logger.h]

    The header defines one class, [Logger], whose member functions are thin
    inline wrappers around the C logging primitives declared in [logging.h]
    ([log_enabled], [log_message_v], [log_printf_v], [log_write], [log_dump]).
    The embedding below keeps that shape: every member function is a
    computation in a small monad that threads the state of the logging
    backend (its level policy and the list of primitive calls received so
    far) and can end in undefined behaviour. *)

From Stdlib Require Import ZArith NArith List String Ascii Bool Lia.
From Stdlib.Strings Require Import Byte.
Import ListNotations.

Local Open Scope N_scope.

(** ** Data *)

(** A [const char*] / [const void*]: either the null pointer or the bytes of
    the object it points to, from the pointed-to position to the end of that
    object.  The handle never writes through a pointer. *)
Definition buffer := list byte.
Definition pointer := option buffer.
Definition nullptr : pointer := None.

(** [LogLevel] is an enumeration of [logging.h]; its enumerators are C
    integers. *)
Definition LogLevel := Z.
Bind Scope Z_scope with LogLevel.

(** Modelled from the spec: the structure [LogAttributes] of [logging.h],
    which is not part of the source tree.  The spec gives its first two
    fields, a declared-size tag and a flag bitset; they are the two fields
    the handle assigns ([attr.size], [attr.flags]). *)
Record LogAttributes := mkLogAttributes { size : N; flags : Z }.

(** One argument of a variadic call, as it travels in a [va_list]. *)
Inductive va_arg :=
| va_int (z : Z)
| va_str (p : pointer).
Definition va_list := list va_arg.

(** What [Logger.h] takes from [logging.h] and the build: the enumerators
    it names, the module's default category and [sizeof(LogAttributes)]. *)
Class LoggingHeader := {
  LOG_LEVEL_TRACE : LogLevel;
  DEBUG_LEVEL : LogLevel;
  LOG_LEVEL_INFO : LogLevel;
  LOG_LEVEL_WARN : LogLevel;
  LOG_LEVEL_ERROR : LogLevel;
  LOG_MODULE_CATEGORY : pointer;
  sizeof_LogAttributes : N
}.

(** ** The backend, seen from the handle *)

(** A call of one of the five primitives, with the arguments of the call
    site.  The third argument of [log_printf_v] and the last one of
    [log_write] and [log_dump] are pointers for which the handle always
    passes [nullptr]; the spec names them the attributes record. *)
Inductive BackendCall :=
| log_enabled_call (level : LogLevel) (category : pointer) (reserved : pointer)
| log_message_v_call (level : LogLevel) (category : pointer)
    (attr : option LogAttributes) (reserved : pointer)
    (fmt : pointer) (args : va_list)
| log_printf_v_call (level : LogLevel) (category : pointer)
    (attr : option LogAttributes) (fmt : pointer) (args : va_list)
| log_write_call (level : LogLevel) (category : pointer)
    (data : pointer) (size : N) (attr : option LogAttributes)
| log_dump_call (level : LogLevel) (category : pointer)
    (data : pointer) (size : N) (flags : Z) (attr : option LogAttributes).

(** The backend state a call can observe or change: the answer of the
    enablement query for each (level, category), and the calls received. *)
Record Backend := mkBackend {
  enabled : LogLevel -> pointer -> bool;
  calls : list BackendCall
}.

Definition received (w : Backend) (new : list BackendCall) : Backend :=
  {| enabled := enabled w; calls := calls w ++ new |}.

(** ** The monad of member functions: backend state and undefined behaviour *)

Definition M (A : Type) : Type := Backend -> option (A * Backend).

Definition ret {A} (a : A) : M A := fun w => Some (a, w).

Definition bind {A B} (m : M A) (k : A -> M B) : M B :=
  fun w => match m w with
           | Some (a, w') => k a w'
           | None => None
           end.

Definition undefined_behaviour {A} : M A := fun _ => None.

(** Code that does not compile has no run either. *)
Definition ill_formed {A} : M A := fun _ => None.

Declare Scope logger_scope.
Delimit Scope logger_scope with logger.
Notation "x <- m ;; k" := (bind m (fun x => k))
  (at level 61, m at next level, right associativity) : logger_scope.
Notation "m ;;; k" := (bind m (fun _ => k))
  (at level 61, right associativity) : logger_scope.
Local Open Scope logger_scope.

(** ** The primitives of [logging.h], as the handle calls them

    Their bodies belong to the backend.  From the handle's side a call
    delivers its arguments to the backend and returns; only [log_enabled]
    returns an answer, which is the backend's to give. *)

Definition log_enabled (level : LogLevel) (category reserved : pointer) : M bool :=
  fun w => Some (enabled w level category,
                 received w [log_enabled_call level category reserved]).

Definition log_message_v (level : LogLevel) (category : pointer)
    (attr : option LogAttributes) (reserved fmt : pointer) (args : va_list) : M unit :=
  fun w => Some (tt, received w [log_message_v_call level category attr reserved fmt args]).

Definition log_printf_v (level : LogLevel) (category : pointer)
    (attr : option LogAttributes) (fmt : pointer) (args : va_list) : M unit :=
  fun w => Some (tt, received w [log_printf_v_call level category attr fmt args]).

Definition log_write (level : LogLevel) (category data : pointer) (size : N)
    (attr : option LogAttributes) : M unit :=
  fun w => Some (tt, received w [log_write_call level category data size attr]).

Definition log_dump (level : LogLevel) (category data : pointer) (size : N)
    (flags : Z) (attr : option LogAttributes) : M unit :=
  fun w => Some (tt, received w [log_dump_call level category data size flags attr]).

(** [strlen] of the C library: the number of bytes before the first NUL.
    Reading through a null pointer, or past the end of an object that holds
    no NUL, is undefined. *)
Fixpoint strlen_bytes (s : buffer) : option N :=
  match s with
  | [] => None
  | b :: s' =>
      if Byte.eqb b x00 then Some 0
      else option_map N.succ (strlen_bytes s')
  end.

Definition strlen (str : pointer) : M N :=
  match str with
  | None => undefined_behaviour
  | Some s =>
      match strlen_bytes s with
      | Some n => ret n
      | None => undefined_behaviour
      end
  end.

(** ** class Logger *)

Module Logger.

(** The only data member: [const char *const name_]. *)
Record t := mk { name_ : pointer }.

Section Members.
Context {hdr : LoggingHeader}.

(** [static const LogLevel DEFAULT_LEVEL = LOG_LEVEL_INFO;] *)
Definition DEFAULT_LEVEL : LogLevel := LOG_LEVEL_INFO.

(** [explicit Logger(const char *name = LOG_MODULE_CATEGORY)]: the argument
    is [None] when the call site leaves it out. *)
Definition construct (name : option pointer) : t :=
  {| name_ := match name with
              | Some p => p
              | None => LOG_MODULE_CATEGORY
              end |}.

(** The private [log(LogLevel, const char*, va_list)]. *)
Definition log_va (this : t) (level : LogLevel) (fmt : pointer) (args : va_list) : M unit :=
  let attr := {| size := sizeof_LogAttributes; flags := 0 |} in
  log_message_v level (name_ this) (Some attr) nullptr fmt args.

Definition trace (this : t) (fmt : pointer) (args : va_list) : M unit :=
  log_va this LOG_LEVEL_TRACE fmt args.

Definition debug (this : t) (fmt : pointer) (args : va_list) : M unit :=
  log_va this DEBUG_LEVEL fmt args.

Definition info (this : t) (fmt : pointer) (args : va_list) : M unit :=
  log_va this LOG_LEVEL_INFO fmt args.

Definition warn (this : t) (fmt : pointer) (args : va_list) : M unit :=
  log_va this LOG_LEVEL_WARN fmt args.

Definition error (this : t) (fmt : pointer) (args : va_list) : M unit :=
  log_va this LOG_LEVEL_ERROR fmt args.

(** [log(const char *fmt, ...)] *)
Definition log (this : t) (fmt : pointer) (args : va_list) : M unit :=
  log_va this DEFAULT_LEVEL fmt args.

(** [log(LogLevel level, const char *fmt, ...)] *)
Definition log_at (this : t) (level : LogLevel) (fmt : pointer) (args : va_list) : M unit :=
  log_va this level fmt args.

(** [printf(const char *fmt, ...)] *)
Definition printf (this : t) (fmt : pointer) (args : va_list) : M unit :=
  log_printf_v DEFAULT_LEVEL (name_ this) None fmt args.

(** [printf(LogLevel level, const char *fmt, ...)] *)
Definition printf_at (this : t) (level : LogLevel) (fmt : pointer) (args : va_list) : M unit :=
  log_printf_v level (name_ this) None fmt args.

(** [write(LogLevel level, const char *data, size_t size)] *)
Definition write_at (this : t) (level : LogLevel) (data : pointer) (size : N) : M unit :=
  match data with
  | Some _ => log_write level (name_ this) data size None
  | None => ret tt
  end.

(** [write(const char *data, size_t size)] *)
Definition write (this : t) (data : pointer) (size : N) : M unit :=
  write_at this DEFAULT_LEVEL data size.

(** [print(LogLevel level, const char *str)]: the argument [strlen(str)] is
    evaluated before [write] is entered. *)
Definition print_at (this : t) (level : LogLevel) (str : pointer) : M unit :=
  n <- strlen str ;;
  write_at this level str n.

(** [print(const char *str)] *)
Definition print (this : t) (str : pointer) : M unit :=
  print_at this DEFAULT_LEVEL str.

(** [dump(LogLevel level, const void *data, size_t size)] *)
Definition dump_at (this : t) (level : LogLevel) (data : pointer) (size : N) : M unit :=
  match data with
  | Some _ => log_dump level (name_ this) data size 0 None
  | None => ret tt
  end.

(** [dump(const void *data, size_t size)] *)
Definition dump (this : t) (data : pointer) (size : N) : M unit :=
  dump_at this DEFAULT_LEVEL data size.

Definition isLevelEnabled (this : t) (level : LogLevel) : M bool :=
  log_enabled level (name_ this) nullptr.

Definition isTraceEnabled (this : t) : M bool := isLevelEnabled this LOG_LEVEL_TRACE.
Definition isInfoEnabled (this : t) : M bool := isLevelEnabled this LOG_LEVEL_INFO.
Definition isWarnEnabled (this : t) : M bool := isLevelEnabled this LOG_LEVEL_WARN.
Definition isErrorEnabled (this : t) : M bool := isLevelEnabled this LOG_LEVEL_ERROR.

Definition name (this : t) : M pointer := ret (name_ this).

(** [operator()(const char *fmt, ...)] *)
Definition call (this : t) (fmt : pointer) (args : va_list) : M unit :=
  log_va this DEFAULT_LEVEL fmt args.

(** [operator()(LogLevel level, const char *fmt, ...)] *)
Definition call_at (this : t) (level : LogLevel) (fmt : pointer) (args : va_list) : M unit :=
  log_va this level fmt args.

End Members.
End Logger.

(** ** The public interface as data *)

(** The public emitting member functions, each with its arguments. *)
Inductive Emit :=
| Etrace (fmt : pointer) (args : va_list)
| Edebug (fmt : pointer) (args : va_list)
| Einfo (fmt : pointer) (args : va_list)
| Ewarn (fmt : pointer) (args : va_list)
| Eerror (fmt : pointer) (args : va_list)
| Elog (fmt : pointer) (args : va_list)
| Elog_at (level : LogLevel) (fmt : pointer) (args : va_list)
| Eprintf (fmt : pointer) (args : va_list)
| Eprintf_at (level : LogLevel) (fmt : pointer) (args : va_list)
| Eprint (str : pointer)
| Eprint_at (level : LogLevel) (str : pointer)
| Ewrite (data : pointer) (size : N)
| Ewrite_at (level : LogLevel) (data : pointer) (size : N)
| Edump (data : pointer) (size : N)
| Edump_at (level : LogLevel) (data : pointer) (size : N)
| Ecall (fmt : pointer) (args : va_list)
| Ecall_at (level : LogLevel) (fmt : pointer) (args : va_list).

(** Every public const member function. *)
Inductive Op :=
| Oemit (e : Emit)
| OisTraceEnabled
| OisInfoEnabled
| OisWarnEnabled
| OisErrorEnabled
| OisLevelEnabled (level : LogLevel)
| Oname.

Inductive Value :=
| Vvoid
| Vbool (b : bool)
| Vpointer (p : pointer).

(** The special member functions the class declares:
    [Logger(const Logger&) = delete;] and
    [Logger& operator=(const Logger&) = delete;]. *)
Inductive SpecialMember := deleted | defaulted.
Definition copy_constructor : SpecialMember := deleted.
Definition copy_assignment : SpecialMember := deleted.

(** What client code can write with loggers [0 .. n-1] in scope. *)
Inductive Stmt :=
| Sconstruct (name : option pointer)
| Scall (obj : nat) (op : Op)
| Scopy_construct (src : nat)
| Scopy_assign (dst src : nat).

Fixpoint replace_nth {A} (i : nat) (x : A) (l : list A) : list A :=
  match l, i with
  | [], _ => []
  | _ :: r, O => x :: r
  | y :: r, S j => y :: replace_nth j x r
  end.

Section Interface.
Context {hdr : LoggingHeader}.

Definition invoke (this : Logger.t) (e : Emit) : M unit :=
  match e with
  | Etrace fmt args => Logger.trace this fmt args
  | Edebug fmt args => Logger.debug this fmt args
  | Einfo fmt args => Logger.info this fmt args
  | Ewarn fmt args => Logger.warn this fmt args
  | Eerror fmt args => Logger.error this fmt args
  | Elog fmt args => Logger.log this fmt args
  | Elog_at level fmt args => Logger.log_at this level fmt args
  | Eprintf fmt args => Logger.printf this fmt args
  | Eprintf_at level fmt args => Logger.printf_at this level fmt args
  | Eprint str => Logger.print this str
  | Eprint_at level str => Logger.print_at this level str
  | Ewrite data size => Logger.write this data size
  | Ewrite_at level data size => Logger.write_at this level data size
  | Edump data size => Logger.dump this data size
  | Edump_at level data size => Logger.dump_at this level data size
  | Ecall fmt args => Logger.call this fmt args
  | Ecall_at level fmt args => Logger.call_at this level fmt args
  end.

(** The level an emitting call is made at: the explicit argument, or the
    level the member function documents. *)
Definition emit_level (e : Emit) : LogLevel :=
  match e with
  | Etrace _ _ => LOG_LEVEL_TRACE
  | Edebug _ _ => DEBUG_LEVEL
  | Einfo _ _ => LOG_LEVEL_INFO
  | Ewarn _ _ => LOG_LEVEL_WARN
  | Eerror _ _ => LOG_LEVEL_ERROR
  | Elog _ _ | Eprintf _ _ | Eprint _ | Ewrite _ _ | Edump _ _ | Ecall _ _ =>
      Logger.DEFAULT_LEVEL
  | Elog_at level _ _ | Eprintf_at level _ _ | Eprint_at level _
  | Ewrite_at level _ _ | Edump_at level _ _ | Ecall_at level _ _ => level
  end.

(** The overloads that take no level argument. *)
Definition levelless (e : Emit) : bool :=
  match e with
  | Elog _ _ | Eprintf _ _ | Eprint _ | Ewrite _ _ | Edump _ _ | Ecall _ _ => true
  | _ => false
  end.

(** The data pointer of a [write]/[dump] call is null. *)
Definition null_buffer (e : Emit) : bool :=
  match e with
  | Ewrite None _ | Ewrite_at _ None _ | Edump None _ | Edump_at _ None _ => true
  | _ => false
  end.

(** The precondition of the call: [print] needs a NUL-terminated string. *)
Definition defined (e : Emit) : bool :=
  match e with
  | Eprint (Some s) | Eprint_at _ (Some s) =>
      match strlen_bytes s with Some _ => true | None => false end
  | Eprint None | Eprint_at _ None => false
  | _ => true
  end.

Definition perform (this : Logger.t) (op : Op) : M Value :=
  match op with
  | Oemit e => invoke this e ;;; ret Vvoid
  | OisTraceEnabled => b <- Logger.isTraceEnabled this ;; ret (Vbool b)
  | OisInfoEnabled => b <- Logger.isInfoEnabled this ;; ret (Vbool b)
  | OisWarnEnabled => b <- Logger.isWarnEnabled this ;; ret (Vbool b)
  | OisErrorEnabled => b <- Logger.isErrorEnabled this ;; ret (Vbool b)
  | OisLevelEnabled level => b <- Logger.isLevelEnabled this level ;; ret (Vbool b)
  | Oname => p <- Logger.name this ;; ret (Vpointer p)
  end.

(** One statement of client code over the loggers in scope.  A use of a
    deleted function is ill-formed: there is nothing to run.  Calling a
    member function of a logger that was not constructed is undefined. *)
Definition exec_stmt (objs : list Logger.t) (s : Stmt) : M (list Logger.t) :=
  match s with
  | Sconstruct name => ret (objs ++ [Logger.construct name])
  | Scall obj op =>
      match nth_error objs obj with
      | Some this => perform this op ;;; ret objs
      | None => undefined_behaviour
      end
  | Scopy_construct src =>
      match copy_constructor with
      | deleted => ill_formed
      | defaulted =>
          match nth_error objs src with
          | Some other => ret (objs ++ [other])
          | None => undefined_behaviour
          end
      end
  | Scopy_assign dst src =>
      match copy_assignment with
      | deleted => ill_formed
      | defaulted =>
          match nth_error objs src with
          | Some other => ret (replace_nth dst other objs)
          | None => undefined_behaviour
          end
      end
  end.

Fixpoint exec (objs : list Logger.t) (prog : list Stmt) : M (list Logger.t) :=
  match prog with
  | [] => ret objs
  | s :: rest => objs' <- exec_stmt objs s ;; exec objs' rest
  end.

End Interface.

(** ** Observations on backend calls *)

Definition is_query (c : BackendCall) : bool :=
  match c with
  | log_enabled_call _ _ _ => true
  | _ => false
  end.

Definition is_emit (c : BackendCall) : bool := negb (is_query c).

Definition call_level (c : BackendCall) : LogLevel :=
  match c with
  | log_enabled_call level _ _
  | log_message_v_call level _ _ _ _ _
  | log_printf_v_call level _ _ _ _
  | log_write_call level _ _ _ _
  | log_dump_call level _ _ _ _ _ => level
  end.

Definition call_category (c : BackendCall) : pointer :=
  match c with
  | log_enabled_call _ category _
  | log_message_v_call _ category _ _ _ _
  | log_printf_v_call _ category _ _ _
  | log_write_call _ category _ _ _
  | log_dump_call _ category _ _ _ _ => category
  end.

Definition call_attributes (c : BackendCall) : option LogAttributes :=
  match c with
  | log_enabled_call _ _ _ => None
  | log_message_v_call _ _ attr _ _ _
  | log_printf_v_call _ _ attr _ _
  | log_write_call _ _ _ _ attr
  | log_dump_call _ _ _ _ _ attr => attr
  end.

(** ** The text of a hex dump *)

(** Modelled from the spec: the digits of the encoding applied by the
    backend primitive [log_dump], which [logging.h] declares and the source
    tree does not contain.  The spec fixes the encoding: each byte gives
    two uppercase hexadecimal digits, in buffer order, with no
    separators. *)
Definition hex_digits : string := "0123456789ABCDEF".

(** Modelled from the spec: the uppercase digit of a nibble, for
    [log_dump]. *)
Definition hex_digit (n : N) : ascii :=
  match String.get (N.to_nat n) hex_digits with
  | Some c => c
  | None => "0"%char
  end.

(** Modelled from the spec: the two digits of a byte, high nibble first,
    for [log_dump]. *)
Definition hex_pair (b : byte) : ascii * ascii :=
  (hex_digit (Byte.to_N b / 16), hex_digit (Byte.to_N b mod 16)).

(** Modelled from the spec: the digits of a buffer, byte after byte, for
    [log_dump]. *)
Fixpoint hex_encode (bs : buffer) : string :=
  match bs with
  | [] => EmptyString
  | b :: rest => String (fst (hex_pair b)) (String (snd (hex_pair b)) (hex_encode rest))
  end.

(** Modelled from the spec: the text [log_dump] emits for the first [size]
    bytes at [data]. *)
Definition log_dump_text (data : buffer) (size : N) : string :=
  hex_encode (firstn (N.to_nat size) data).

(** Modelled from the spec: the text the backend emits for a call of
    [log_dump]. *)
Definition dump_text (c : BackendCall) : option string :=
  match c with
  | log_dump_call _ _ (Some data) size _ _ => Some (log_dump_text data size)
  | _ => None
  end.

(** Reading the text back: the value of an uppercase hexadecimal digit
    (['0'..'9'] are 48..57, ['A'..'F'] are 65..70), and the bytes of a
    string of digit pairs. *)
Definition hex_value (c : ascii) : option N :=
  let n := N_of_ascii c in
  if (48 <=? n) && (n <=? 57) then Some (n - 48)
  else if (65 <=? n) && (n <=? 70) then Some (n - 55)
  else None.

Fixpoint hex_decode (s : string) : option buffer :=
  match s with
  | EmptyString => Some []
  | String _ EmptyString => None
  | String hi (String lo rest) =>
      match hex_value hi, hex_value lo, hex_decode rest with
      | Some h, Some l, Some bs =>
          option_map (fun b => b :: bs) (Byte.of_N (16 * h + l))
      | _, _, _ => None
      end
  end.

(** A C string literal: the characters followed by NUL. *)
Definition literal (s : string) : pointer :=
  Some (list_byte_of_string s ++ [x00]).

(** ** Properties the handle is checked against *)

Section Gating.
Context {hdr : LoggingHeader}.

(** The member function asks the enablement query for its level and
    category before it does anything else. *)
Definition checks_first (this : Logger.t) (e : Emit) (w : Backend) : Prop :=
  exists w' rest,
    invoke this e w = Some (tt, w') /\
    calls w' =
      calls w ++ log_enabled_call (emit_level e) (Logger.name_ this) nullptr :: rest.

(** When the query answers false for the call's level and category, the
    call returns and no emitting primitive has been reached. *)
Definition silent_when_disabled (this : Logger.t) (e : Emit) (w : Backend) : Prop :=
  enabled w (emit_level e) (Logger.name_ this) = false ->
  exists w',
    invoke this e w = Some (tt, w') /\
    filter is_emit (calls w') = filter is_emit (calls w).

(** The direct-emission primitive receives the category together with an
    attributes record. *)
Definition printf_carries_attributes (this : Logger.t) (level : LogLevel)
    (fmt : pointer) (args : va_list) (w : Backend) : Prop :=
  exists c attr,
    Logger.printf_at this level fmt args w = Some (tt, received w [c]) /\
    call_category c = Logger.name_ this /\
    call_attributes c = Some attr.

End Gating.

(** The structured formatted emissions: those that end in [log_message_v]. *)
Definition structured (e : Emit) : bool :=
  match e with
  | Etrace _ _ | Edebug _ _ | Einfo _ _ | Ewarn _ _ | Eerror _ _
  | Elog _ _ | Elog_at _ _ _ | Ecall _ _ | Ecall_at _ _ _ => true
  | _ => false
  end.

Definition printf_family (e : Emit) : bool :=
  match e with
  | Eprintf _ _ | Eprintf_at _ _ _ => true
  | _ => false
  end.

Definition is_message (c : BackendCall) : bool :=
  match c with
  | log_message_v_call _ _ _ _ _ _ => true
  | _ => false
  end.

Definition is_printf (c : BackendCall) : bool :=
  match c with
  | log_printf_v_call _ _ _ _ _ => true
  | _ => false
  end.

(** ** One configuration, for concrete runs *)

(** A [logging.h] with the levels in increasing order of severity and the
    module category ["app"]. *)
Definition example_header : LoggingHeader := {|
  LOG_LEVEL_TRACE := 1%Z;
  DEBUG_LEVEL := 10%Z;
  LOG_LEVEL_INFO := 30%Z;
  LOG_LEVEL_WARN := 40%Z;
  LOG_LEVEL_ERROR := 50%Z;
  LOG_MODULE_CATEGORY := literal "app";
  sizeof_LogAttributes := 32
|}.

(** A backend that has received nothing yet and enables, for every
    category, the levels at or above [minimum]. *)
Definition threshold_backend (minimum : LogLevel) : Backend :=
  {| enabled := fun level _ => (minimum <=? level)%Z; calls := [] |}.

Definition net_logger : Logger.t :=
  Logger.construct (hdr := example_header) (Some (literal "net")).

Definition app_logger : Logger.t :=
  Logger.construct (hdr := example_header) None.

(** Client code with one logger already in scope: two more are constructed
    and member functions are called. *)
Definition example_program : list Stmt :=
  [ Sconstruct (Some (literal "net"));
    Scall 0 (Oemit (Ewarn (literal "x=%d") [va_int 5]));
    Scall 0 Oname;
    Sconstruct None;
    Scall 1 OisInfoEnabled;
    Scall 1 (Oemit (Edump (Some [x0a; xff]) 2)) ].

(** ** Client idioms *)

Section Idioms.
Context {hdr : LoggingHeader}.

(** Client code: [if (logger.isLevelEnabled(level)) logger.emit(...);],
    where [level] is the level the emitting call is made at. *)
Definition guarded (this : Logger.t) (e : Emit) : M unit :=
  b <- Logger.isLevelEnabled this (emit_level e) ;;
  if b then invoke this e else ret tt.

End Idioms.

Section MemberCalls.
Context {hdr : LoggingHeader}.

(** The member-function calls of a program, in program order, each with
    the logger it is made on.  [objs] are the loggers in scope, which grow
    with every construction. *)
Fixpoint member_call_list (objs : list Logger.t) (prog : list Stmt)
    : list (Logger.t * Op) :=
  match prog with
  | [] => []
  | Sconstruct name :: rest =>
      member_call_list (objs ++ [Logger.construct name]) rest
  | Scall obj op :: rest =>
      match nth_error objs obj with
      | Some this => (this, op) :: member_call_list objs rest
      | None => []
      end
  | (Scopy_construct _ | Scopy_assign _ _) :: _ => []
  end.

End MemberCalls.

(** * Properties *)

(** ** The monad *)

Lemma bind_ret_l {A B} (a : A) (k : A -> M B) w : bind (ret a) k w = k a w.
Proof. reflexivity. Qed.

Lemma bind_undefined {A B} (k : A -> M B) w : bind undefined_behaviour k w = None.
Proof. reflexivity. Qed.

Lemma received_nil w : received w [] = w.
Proof. destruct w as [p c]; unfold received; cbn. now rewrite app_nil_r. Qed.

Lemma received_app w l1 l2 : received (received w l1) l2 = received w (l1 ++ l2).
Proof. unfold received; cbn. now rewrite app_assoc. Qed.

Lemma enabled_received w l : enabled (received w l) = enabled w.
Proof. reflexivity. Qed.

Lemma calls_received w l : calls (received w l) = calls w ++ l.
Proof. reflexivity. Qed.

(** ** Hex digits *)

Lemma hex_pair_value (b : byte) :
  hex_value (fst (hex_pair b)) = Some (Byte.to_N b / 16) /\
  hex_value (snd (hex_pair b)) = Some (Byte.to_N b mod 16).
Proof. destruct b; split; vm_compute; reflexivity. Qed.

Lemma hex_pair_decode (b : byte) :
  hex_decode (String (fst (hex_pair b)) (String (snd (hex_pair b)) EmptyString)) = Some [b].
Proof. destruct b; vm_compute; reflexivity. Qed.

Lemma hex_decode_cons (b : byte) (s : string) :
  hex_decode (String (fst (hex_pair b)) (String (snd (hex_pair b)) s)) =
  option_map (cons b) (hex_decode s).
Proof.
  pose proof (hex_pair_decode b) as Hb.
  cbn [hex_decode] in *.
  destruct (hex_value (fst (hex_pair b))) as [h|]; [|discriminate].
  destruct (hex_value (snd (hex_pair b))) as [l|]; [|discriminate].
  destruct (Byte.of_N (16 * h + l)) as [b'|]; [|discriminate].
  cbn in Hb. injection Hb as ->.
  destruct (hex_decode s); reflexivity.
Qed.

Lemma hex_encode_length (bs : buffer) :
  String.length (hex_encode bs) = (2 * List.length bs)%nat.
Proof.
  induction bs as [|b rest IH]; cbn [hex_encode String.length List.length].
  - reflexivity.
  - rewrite IH. lia.
Qed.

Lemma hex_encode_get (bs : buffer) : forall (i : nat) (b : byte),
  nth_error bs i = Some b ->
  String.get (2 * i) (hex_encode bs) = Some (fst (hex_pair b)) /\
  String.get (2 * i + 1) (hex_encode bs) = Some (snd (hex_pair b)).
Proof.
  induction bs as [|b0 rest IH]; intros i b Hi.
  - destruct i; discriminate.
  - destruct i as [|j].
    + injection Hi as ->. split; reflexivity.
    + cbn [nth_error] in Hi. destruct (IH j b Hi) as [Hhi Hlo].
      replace (2 * S j)%nat with (S (S (2 * j))) by lia.
      replace (S (S (2 * j)) + 1)%nat with (S (S (2 * j + 1))) by lia.
      cbn [hex_encode String.get]. split; assumption.
Qed.

Lemma hex_decode_encode (bs : buffer) : hex_decode (hex_encode bs) = Some bs.
Proof.
  induction bs as [|b rest IH]; [reflexivity|].
  cbn [hex_encode]. rewrite hex_decode_cons, IH. reflexivity.
Qed.

Lemma firstn_length_all {A} (l : list A) :
  firstn (N.to_nat (N.of_nat (List.length l))) l = l.
Proof. rewrite Nat2N.id. apply firstn_all. Qed.

(** ** strlen *)

Lemma strlen_bytes_split (s : buffer) : forall n,
  strlen_bytes s = Some n ->
  exists pre post,
    s = pre ++ x00 :: post /\ ~ In x00 pre /\ n = N.of_nat (List.length pre).
Proof.
  induction s as [|b s' IH]; intros n Hn; [discriminate|].
  cbn [strlen_bytes] in Hn.
  destruct (Byte.eqb b x00) eqn:Hb.
  - apply Byte.byte_dec_bl in Hb. subst b. injection Hn as <-.
    exists [], s'. repeat split. intros [].
  - destruct (strlen_bytes s') as [m|] eqn:Hm; [|discriminate].
    cbn in Hn. injection Hn as <-.
    destruct (IH m eq_refl) as (pre & post & -> & Hpre & ->).
    exists (b :: pre), post. repeat split.
    + intros [Heq|Hin]; [|exact (Hpre Hin)].
      apply Byte.eqb_false in Hb. contradiction.
    + cbn [List.length]. lia.
Qed.

Lemma strlen_literal_defined (pre post : buffer) :
  ~ In x00 pre ->
  strlen_bytes (pre ++ x00 :: post) = Some (N.of_nat (List.length pre)).
Proof.
  induction pre as [|b pre IH]; intros Hpre.
  - reflexivity.
  - cbn [app strlen_bytes].
    destruct (Byte.eqb b x00) eqn:Hb.
    + apply Byte.byte_dec_bl in Hb. subst b. exfalso. apply Hpre. now left.
    + rewrite IH by (intros Hin; apply Hpre; now right).
      cbn [option_map List.length]. f_equal. lia.
Qed.

(** ** Member functions, one call each *)

Section Calls.
Context {hdr : LoggingHeader}.

Lemma log_va_run this level fmt args w :
  Logger.log_va this level fmt args w =
  Some (tt, received w
    [log_message_v_call level (Logger.name_ this)
       (Some {| size := sizeof_LogAttributes; flags := 0 |}) nullptr fmt args]).
Proof. reflexivity. Qed.

Lemma printf_at_run this level fmt args w :
  Logger.printf_at this level fmt args w =
  Some (tt, received w [log_printf_v_call level (Logger.name_ this) None fmt args]).
Proof. reflexivity. Qed.

Lemma write_at_run this level (data : buffer) size w :
  Logger.write_at this level (Some data) size w =
  Some (tt, received w [log_write_call level (Logger.name_ this) (Some data) size None]).
Proof. reflexivity. Qed.

Lemma dump_at_run this level (data : buffer) size w :
  Logger.dump_at this level (Some data) size w =
  Some (tt, received w [log_dump_call level (Logger.name_ this) (Some data) size 0 None]).
Proof. reflexivity. Qed.

Lemma print_at_run this level (s : buffer) n w :
  strlen_bytes s = Some n ->
  Logger.print_at this level (Some s) w =
  Some (tt, received w [log_write_call level (Logger.name_ this) (Some s) n None]).
Proof.
  intros Hn. unfold Logger.print_at, bind, strlen. rewrite Hn. reflexivity.
Qed.

Lemma print_at_undefined this level str w :
  defined (Eprint_at level str) = false ->
  Logger.print_at this level str w = None.
Proof.
  unfold Logger.print_at, bind, strlen. destruct str as [s|]; cbn.
  - destruct (strlen_bytes s); [discriminate | reflexivity].
  - reflexivity.
Qed.

(** One primitive call, shown by the run lemma [run]; or none. *)
Ltac one_call_by tac :=
  eexists; split; [intros ?; tac|];
  split; [repeat constructor | reflexivity].

Ltac one_call run := one_call_by ltac:(apply run).

Ltac no_call :=
  exists []; split; [intros ?; now rewrite received_nil|];
  split; [constructor | reflexivity].

(** What an emitting call hands to the backend when it is defined. *)
Lemma invoke_run this e :
  defined e = true ->
  exists new,
    (forall w, invoke this e w = Some (tt, received w new)) /\
    Forall (fun c => is_emit c = true /\
                     call_level c = emit_level e /\
                     call_category c = Logger.name_ this) new /\
    List.length new = (if null_buffer e then 0 else 1)%nat.
Proof.
  intros Hdef.
  destruct e as [fmt args|fmt args|fmt args|fmt args|fmt args|fmt args
                |level fmt args|fmt args|level fmt args|str|level str
                |data sz|level data sz|data sz|level data sz
                |fmt args|level fmt args];
    cbn [invoke]; unfold Logger.trace, Logger.debug, Logger.info, Logger.warn,
      Logger.error, Logger.log, Logger.log_at, Logger.printf, Logger.call,
      Logger.call_at, Logger.print, Logger.write, Logger.dump;
    try (one_call log_va_run); try (one_call printf_at_run).
  1, 2:
    destruct str as [s|]; [|discriminate]; cbn in Hdef;
    destruct (strlen_bytes s) as [n|] eqn:Hn; [|discriminate];
    one_call_by ltac:(apply print_at_run; exact Hn).
  1, 2: destruct data as [d|]; [one_call write_at_run | no_call].
  1, 2: destruct data as [d|]; [one_call dump_at_run | no_call].
Qed.

End Calls.

(** ** The spec's scenarios, run on the code *)

Example warn_scenario :
  invoke (hdr := example_header) net_logger (Ewarn (literal "x=%d") [va_int 5])
    (threshold_backend 40) =
  Some (tt, {| enabled := enabled (threshold_backend 40);
               calls := [log_message_v_call 40 (literal "net")
                           (Some {| size := 32; flags := 0 |}) nullptr
                           (literal "x=%d") [va_int 5]] |}).
Proof. reflexivity. Qed.

Example dump_scenario :
  invoke (hdr := example_header) net_logger (Edump (Some [x0a; xff]) 2)
    (threshold_backend 1) =
  Some (tt, {| enabled := enabled (threshold_backend 1);
               calls := [log_dump_call 30 (literal "net") (Some [x0a; xff]) 2 0 None] |}) /\
  dump_text (log_dump_call 30 (literal "net") (Some [x0a; xff]) 2 0 None) = Some "0AFF"%string.
Proof. split; reflexivity. Qed.

Example strlen_scenario :
  strlen_bytes (list_byte_of_string "x=%d" ++ [x00]) = Some 4 /\
  strlen_bytes (list_byte_of_string "x=%d") = None.
Proof. split; reflexivity. Qed.

(** ** Level gating *)

(** C1, as the spec states it, at the spec's own scenario: category ["net"]
    enables Warn and above, and [info("x=%d", 5)] is called.  The query
    answers false for (Info, "net"), yet the call reaches the emitting
    primitive [log_message_v], and it never asks the query. *)
Lemma info_reaches_backend_when_disabled :
  enabled (threshold_backend 40) 30%Z (Logger.name_ net_logger) = false /\
  ~ silent_when_disabled (hdr := example_header) net_logger
      (Einfo (literal "x=%d") [va_int 5]) (threshold_backend 40) /\
  ~ checks_first (hdr := example_header) net_logger
      (Einfo (literal "x=%d") [va_int 5]) (threshold_backend 40).
Proof.
  split; [reflexivity|]. split.
  - intros H. destruct (H eq_refl) as (w' & Hrun & Hsame).
    cbn in Hrun. injection Hrun as <-. cbn in Hsame. discriminate.
  - intros (w' & rest & Hrun & Hcalls).
    cbn in Hrun. injection Hrun as <-. cbn in Hcalls. discriminate.
Qed.

(** C1, amended: no public emitting member function asks the enablement
    query.  Whatever the backend would answer, a call whose arguments meet
    its precondition returns after handing its arguments, unformatted and
    unencoded, to the corresponding backend primitive in exactly one call,
    made at the call's level and for the logger's category: [log_message_v]
    with the format string, the argument list and the attributes for the
    structured methods, [log_printf_v] with the format string and the
    argument list for [printf], [log_write] with the string and its length
    for [print] and with the buffer and size for [write], [log_dump] with
    the buffer, the size and flags 0 for [dump].  [write] and [dump] with a
    null buffer make no call at all. *)
Theorem emitting_calls_are_forwarded_ungated
    {hdr : LoggingHeader} (this : Logger.t) (level : LogLevel)
    (fmt : pointer) (args : va_list) (data s : buffer) (sz n : N) :
  strlen_bytes s = Some n ->
  forall w : Backend,
  let category := Logger.name_ this in
  let attr := Some {| size := sizeof_LogAttributes; flags := 0 |} in
  let message l :=
    Some (tt, received w [log_message_v_call l category attr nullptr fmt args]) in
  let direct l :=
    Some (tt, received w [log_printf_v_call l category None fmt args]) in
  let written l (p : buffer) (k : N) :=
    Some (tt, received w [log_write_call l category (Some p) k None]) in
  let dumped l :=
    Some (tt, received w [log_dump_call l category (Some data) sz 0 None]) in
  Logger.trace this fmt args w = message LOG_LEVEL_TRACE /\
  Logger.debug this fmt args w = message DEBUG_LEVEL /\
  Logger.info this fmt args w = message LOG_LEVEL_INFO /\
  Logger.warn this fmt args w = message LOG_LEVEL_WARN /\
  Logger.error this fmt args w = message LOG_LEVEL_ERROR /\
  Logger.log this fmt args w = message LOG_LEVEL_INFO /\
  Logger.log_at this level fmt args w = message level /\
  Logger.call this fmt args w = message LOG_LEVEL_INFO /\
  Logger.call_at this level fmt args w = message level /\
  Logger.printf this fmt args w = direct LOG_LEVEL_INFO /\
  Logger.printf_at this level fmt args w = direct level /\
  Logger.print this (Some s) w = written LOG_LEVEL_INFO s n /\
  Logger.print_at this level (Some s) w = written level s n /\
  Logger.write this (Some data) sz w = written LOG_LEVEL_INFO data sz /\
  Logger.write_at this level (Some data) sz w = written level data sz /\
  Logger.dump this (Some data) sz w = dumped LOG_LEVEL_INFO /\
  Logger.dump_at this level (Some data) sz w = dumped level /\
  Logger.write this nullptr sz w = Some (tt, w) /\
  Logger.write_at this level nullptr sz w = Some (tt, w) /\
  Logger.dump this nullptr sz w = Some (tt, w) /\
  Logger.dump_at this level nullptr sz w = Some (tt, w).
Proof.
  intros Hn w. cbv zeta.
  assert (Hprint : forall l,
            Logger.print_at this l (Some s) w =
            Some (tt, received w [log_write_call l (Logger.name_ this) (Some s) n None]))
    by (intros l; now apply print_at_run).
  repeat split; first [apply Hprint | apply log_va_run].
Qed.

Lemma emitting_calls_are_forwarded_ungated_witness :
  strlen_bytes (list_byte_of_string "hi" ++ [x00]) = Some 2 /\
  Logger.info (hdr := example_header) net_logger (literal "x=%d") [va_int 5]
      (threshold_backend 40) =
    Some (tt, received (threshold_backend 40)
      [log_message_v_call 30 (literal "net") (Some {| size := 32; flags := 0 |})
         nullptr (literal "x=%d") [va_int 5]]) /\
  Logger.print_at net_logger 40 (literal "hi") (threshold_backend 40) =
    Some (tt, received (threshold_backend 40)
      [log_write_call 40 (literal "net") (literal "hi") 2 None]).
Proof.
  pose proof (emitting_calls_are_forwarded_ungated (hdr := example_header)
                net_logger 40 (literal "x=%d") [va_int 5] [x0a; xff]
                (list_byte_of_string "hi" ++ [x00]) 2 2 eq_refl
                (threshold_backend 40)) as H.
  cbv zeta in H.
  split; [reflexivity|]. split; apply H.
Defined.

(** ** Null buffers *)

(** C3: [write] and [dump] with a null buffer, with or without a level
    argument and whatever the size, return normally and leave the backend
    as it was: no primitive is called. *)
Theorem null_buffer_makes_no_call
    {hdr : LoggingHeader} (this : Logger.t) (level : LogLevel) (size : N) (w : Backend) :
  Logger.write_at this level nullptr size w = Some (tt, w) /\
  Logger.dump_at this level nullptr size w = Some (tt, w) /\
  Logger.write this nullptr size w = Some (tt, w) /\
  Logger.dump this nullptr size w = Some (tt, w).
Proof. repeat split. Qed.

(** ** Levels *)

(** C4: each convenience member function runs exactly as the explicit-level
    [log] does at its fixed level (Trace, Info, Warn, Error; the default
    level for the level-less [log]; [DEBUG_LEVEL] for [debug]), and that
    run is one [log_message_v] call carrying that level and the same
    arguments. *)
Theorem convenience_methods_use_fixed_level
    {hdr : LoggingHeader} (this : Logger.t) (fmt : pointer) (args : va_list) (w : Backend) :
  Logger.trace this fmt args w = Logger.log_at this LOG_LEVEL_TRACE fmt args w /\
  Logger.debug this fmt args w = Logger.log_at this DEBUG_LEVEL fmt args w /\
  Logger.info this fmt args w = Logger.log_at this LOG_LEVEL_INFO fmt args w /\
  Logger.warn this fmt args w = Logger.log_at this LOG_LEVEL_WARN fmt args w /\
  Logger.error this fmt args w = Logger.log_at this LOG_LEVEL_ERROR fmt args w /\
  Logger.log this fmt args w = Logger.log_at this Logger.DEFAULT_LEVEL fmt args w /\
  forall level,
    exists attr,
      Logger.log_at this level fmt args w =
      Some (tt, received w
        [log_message_v_call level (Logger.name_ this) attr nullptr fmt args]).
Proof.
  repeat split. intros level. eexists. apply log_va_run.
Qed.

(** C5: a call of a level-less overload ([log], [printf], [print], [write],
    [dump], and the call operator) is made at the default level, which is
    Info: every primitive call it makes carries [LOG_LEVEL_INFO], and when
    its arguments meet its precondition and its buffer is not null it makes
    one. *)
Theorem levelless_calls_use_info_level
    {hdr : LoggingHeader} (this : Logger.t) (e : Emit) :
  levelless e = true ->
  emit_level e = LOG_LEVEL_INFO /\
  (forall w r w',
     invoke this e w = Some (r, w') ->
     exists new,
       w' = received w new /\
       Forall (fun c => call_level c = LOG_LEVEL_INFO) new) /\
  (defined e = true -> null_buffer e = false ->
   exists c,
     call_level c = LOG_LEVEL_INFO /\
     forall w, invoke this e w = Some (tt, received w [c])).
Proof.
  intros Hll.
  assert (Hlevel : emit_level e = LOG_LEVEL_INFO) by (destruct e; try discriminate; reflexivity).
  split; [exact Hlevel|]. split.
  - intros w r w' Hrun.
    destruct (defined e) eqn:Hdef.
    + destruct (invoke_run this e Hdef) as (new & Hnew & Hall & _).
      rewrite Hnew in Hrun. injection Hrun as _ <-.
      exists new. split; [reflexivity|].
      eapply Forall_impl; [|exact Hall].
      intros c (_ & Hc & _). now rewrite Hc.
    + destruct e; try discriminate.
      cbn [invoke] in Hrun. unfold Logger.print in Hrun.
      now rewrite print_at_undefined in Hrun.
  - intros Hdef Hbuf.
    destruct (invoke_run this e Hdef) as (new & Hnew & Hall & Hlen).
    rewrite Hbuf in Hlen.
    destruct new as [|c [|c' rest]]; try discriminate.
    exists c. split; [|exact Hnew].
    inversion Hall as [|? ? (_ & Hc & _) _]; subst. now rewrite Hc.
Qed.

Lemma levelless_calls_use_info_level_witness :
  emit_level (hdr := example_header) (Edump (Some [x0a; xff]) 2) = 30%Z /\
  (forall w r w',
     invoke (hdr := example_header) net_logger (Edump (Some [x0a; xff]) 2) w = Some (r, w') ->
     exists new,
       w' = received w new /\
       Forall (fun c => call_level c = 30%Z) new) /\
  (defined (Edump (Some [x0a; xff]) 2) = true ->
   null_buffer (Edump (Some [x0a; xff]) 2) = false ->
   exists c,
     call_level c = 30%Z /\
     forall w, invoke (hdr := example_header) net_logger
                 (Edump (Some [x0a; xff]) 2) w = Some (tt, received w [c])).
Proof.
  apply (levelless_calls_use_info_level (hdr := example_header) net_logger
           (Edump (Some [x0a; xff]) 2)).
  reflexivity.
Defined.

(** ** The printf family *)

(** C6, as stated, fails on both sides of the gate.  At a backend that
    enables every level, the call that [printf(LOG_LEVEL_WARN, "x=%d", 5)]
    makes carries no attributes record; at a backend that enables Error
    only, the same call still reaches the direct-emission primitive. *)
Lemma printf_passes_no_attributes :
  (enabled (threshold_backend 1) 40 (Logger.name_ net_logger) = true /\
   ~ printf_carries_attributes net_logger 40
       (literal "x=%d") [va_int 5] (threshold_backend 1)) /\
  (enabled (threshold_backend 50) 40 (Logger.name_ net_logger) = false /\
   ~ silent_when_disabled (hdr := example_header) net_logger
       (Eprintf_at 40 (literal "x=%d") [va_int 5]) (threshold_backend 50)).
Proof.
  split; (split; [reflexivity|]).
  - intros (c & attr & Hrun & _ & Hattr).
    rewrite printf_at_run in Hrun.
    injection Hrun as <-. discriminate.
  - intros H. destruct (H eq_refl) as (w' & Hrun & Hsame).
    cbn in Hrun. injection Hrun as <-. cbn in Hsame. discriminate.
Qed.

(** C6, amended: a printf-family call hands the level, the category name,
    the format string and the argument list, unformatted, to the
    direct-emission primitive in exactly one call, with a null pointer
    where an attributes record would go; the level-less overload does so at
    the default level.  As on the structured path, whose one call is shown
    last, the handle asks no enablement query: the call is made whatever
    the backend would answer. *)
Theorem printf_forwards_to_direct_emission
    {hdr : LoggingHeader} (this : Logger.t) (level : LogLevel)
    (fmt : pointer) (args : va_list) (w : Backend) :
  Logger.printf_at this level fmt args w =
    Some (tt, received w [log_printf_v_call level (Logger.name_ this) None fmt args]) /\
  Logger.printf this fmt args w =
    Some (tt, received w
      [log_printf_v_call Logger.DEFAULT_LEVEL (Logger.name_ this) None fmt args]) /\
  exists attr,
    Logger.log_at this level fmt args w =
      Some (tt, received w
        [log_message_v_call level (Logger.name_ this) (Some attr) nullptr fmt args]).
Proof.
  repeat split. eexists. apply log_va_run.
Qed.

(** ** Identity *)

(** C7: [name()] returns the category the logger was constructed with, the
    module's default category when the constructor was given none, and
    leaves the backend untouched. *)
Theorem name_returns_constructed_category
    {hdr : LoggingHeader} (category : pointer) (w : Backend) :
  Logger.name (Logger.construct (Some category)) w = Some (category, w) /\
  Logger.name (Logger.construct None) w = Some (LOG_MODULE_CATEGORY, w).
Proof. split; reflexivity. Qed.

(** ** Attributes of structured messages *)

(** C8: every structured formatted emission ([trace], [debug], [info],
    [warn], [error], both [log] overloads and both call operators) is one
    [log_message_v] call whose attributes record has its size field set to
    [sizeof(LogAttributes)] and its flags field set (to 0). *)
Theorem structured_messages_carry_sized_attributes
    {hdr : LoggingHeader} (this : Logger.t) (e : Emit) :
  structured e = true ->
  exists attr fmt args,
    size attr = sizeof_LogAttributes /\
    flags attr = 0%Z /\
    forall w,
      invoke this e w =
      Some (tt, received w
        [log_message_v_call (emit_level e) (Logger.name_ this) (Some attr) nullptr fmt args]).
Proof.
  intros Hs.
  exists {| size := sizeof_LogAttributes; flags := 0 |}.
  destruct e; try discriminate;
    do 2 eexists; (split; [reflexivity|split; [reflexivity|]]);
    intros w; apply log_va_run.
Qed.

Lemma structured_messages_carry_sized_attributes_witness :
  exists attr fmt args,
    size attr = 32 /\
    flags attr = 0%Z /\
    forall w,
      invoke (hdr := example_header) net_logger (Ewarn (literal "x=%d") [va_int 5]) w =
      Some (tt, received w
        [log_message_v_call 40 (literal "net") (Some attr) nullptr fmt args]).
Proof.
  apply (structured_messages_carry_sized_attributes (hdr := example_header)
           net_logger (Ewarn (literal "x=%d") [va_int 5])).
  reflexivity.
Defined.

(** ** print *)

(** C10: for a string that is not null and holds a NUL, [print(level, str)]
    runs exactly as [write(level, str, strlen(str))]: one [log_write] call
    with the string and its length.  With a null string [print] is
    undefined, although [write] itself would have returned without a call:
    the length is taken before [write] is entered. *)
Theorem print_is_write_of_strlen
    (this : Logger.t) (level : LogLevel)
    (s : buffer) (n : N) (w : Backend) :
  strlen_bytes s = Some n ->
  Logger.print_at this level (Some s) w = Logger.write_at this level (Some s) n w /\
  Logger.print_at this level (Some s) w =
    Some (tt, received w [log_write_call level (Logger.name_ this) (Some s) n None]) /\
  Logger.print_at this level nullptr w = None /\
  Logger.write_at this level nullptr n w = Some (tt, w).
Proof.
  intros Hn. rewrite (print_at_run this level s n w Hn), write_at_run.
  repeat split.
Qed.

Lemma print_is_write_of_strlen_witness :
  Logger.print_at net_logger 30 (literal "hi") (threshold_backend 1) =
    Logger.write_at net_logger 30 (literal "hi") 2 (threshold_backend 1) /\
  Logger.print_at net_logger 30 (literal "hi") (threshold_backend 1) =
    Some (tt, received (threshold_backend 1)
      [log_write_call 30 (literal "net") (literal "hi") 2 None]) /\
  Logger.print_at net_logger 30 nullptr (threshold_backend 1) = None /\
  Logger.write_at net_logger 30 nullptr 2 (threshold_backend 1) = Some (tt, threshold_backend 1).
Proof.
  apply (print_is_write_of_strlen net_logger 30
           (list_byte_of_string "hi" ++ [x00]) 2 (threshold_backend 1)).
  reflexivity.
Defined.

(** ** Hex dumps *)

(** C2: for a buffer [B] of [N] bytes behind a non-null pointer,
    [dump(level, B, N)] hands the whole buffer to [log_dump] in one call,
    and the text of that call is the hex encoding of [B]: it has exactly
    [2N] characters; characters [2i] and [2i+1] are the uppercase
    hexadecimal digits of the high and low nibble of [B[i]]; the text
    decodes back to [B], so nothing is lost or cut off.  With size 0 the
    call is still made, and its text is empty. *)
Theorem dump_text_is_hex_of_buffer
    (this : Logger.t) (level : LogLevel) (B : buffer) (w : Backend) :
  let n := N.of_nat (List.length B) in
  let c := log_dump_call level (Logger.name_ this) (Some B) n 0 None in
  let c0 := log_dump_call level (Logger.name_ this) (Some B) 0 0 None in
  Logger.dump_at this level (Some B) n w = Some (tt, received w [c]) /\
  dump_text c = Some (hex_encode B) /\
  String.length (hex_encode B) = (2 * List.length B)%nat /\
  (forall i b,
     nth_error B i = Some b ->
     exists hi lo,
       String.get (2 * i) (hex_encode B) = Some hi /\
       String.get (2 * i + 1) (hex_encode B) = Some lo /\
       hex_value hi = Some (Byte.to_N b / 16) /\
       hex_value lo = Some (Byte.to_N b mod 16)) /\
  hex_decode (hex_encode B) = Some B /\
  Logger.dump_at this level (Some B) 0 w = Some (tt, received w [c0]) /\
  dump_text c0 = Some EmptyString.
Proof.
  cbv zeta. split; [apply dump_at_run|].
  split; [cbn [dump_text]; unfold log_dump_text; now rewrite firstn_length_all|].
  split; [apply hex_encode_length|].
  split.
  - intros i b Hi.
    destruct (hex_encode_get B i b Hi) as [Hhi Hlo].
    destruct (hex_pair_value b) as [Vhi Vlo].
    exists (fst (hex_pair b)), (snd (hex_pair b)). repeat split; assumption.
  - split; [apply hex_decode_encode|].
    split; [apply dump_at_run|reflexivity].
Qed.

(** * Further properties of the interface *)

Lemma received_inj w l1 l2 : received w l1 = received w l2 -> l1 = l2.
Proof.
  unfold received. intros H. injection H as H. exact (app_inv_head _ _ _ H).
Qed.

Section More.
Context {hdr : LoggingHeader}.

Lemma invoke_undefined this e w : defined e = false -> invoke this e w = None.
Proof.
  destruct e; try discriminate; intros H; cbn [invoke]; unfold Logger.print;
    apply print_at_undefined; exact H.
Qed.

Lemma perform_run this op w v w' :
  perform this op w = Some (v, w') ->
  exists new,
    w' = received w new /\
    (List.length new <= 1)%nat /\
    Forall (fun c => call_category c = Logger.name_ this) new.
Proof.
  destruct op as [e| | | | |level|]; cbn [perform]; unfold bind.
  - destruct (defined e) eqn:Hd.
    + destruct (invoke_run this e Hd) as (new & Hrun & Hall & Hlen).
      rewrite Hrun. unfold ret. intros H. injection H as _ <-.
      exists new. split; [reflexivity|]. split.
      * rewrite Hlen. destruct (null_buffer e); lia.
      * eapply Forall_impl; [|exact Hall]. now intros c (_ & _ & Hc).
    + now rewrite invoke_undefined.
  - cbn. intros H. injection H as _ <-.
    eexists. split; [reflexivity|]. split; [cbn; lia | repeat constructor].
  - cbn. intros H. injection H as _ <-.
    eexists. split; [reflexivity|]. split; [cbn; lia | repeat constructor].
  - cbn. intros H. injection H as _ <-.
    eexists. split; [reflexivity|]. split; [cbn; lia | repeat constructor].
  - cbn. intros H. injection H as _ <-.
    eexists. split; [reflexivity|]. split; [cbn; lia | repeat constructor].
  - cbn. intros H. injection H as _ <-.
    eexists. split; [reflexivity|]. split; [cbn; lia | repeat constructor].
  - cbn. intros H. injection H as _ <-.
    exists []. split; [now rewrite received_nil|]. split; [cbn; lia | constructor].
Qed.

(** What a member call appends does not depend on the backend state it
    starts from. *)
Lemma perform_alone this op w v w' :
  perform this op w = Some (v, w') ->
  exists part,
    w' = received w part /\
    (List.length part <= 1)%nat /\
    Forall (fun c => call_category c = Logger.name_ this) part /\
    forall w0, exists v0, perform this op w0 = Some (v0, received w0 part).
Proof.
  intros Hrun.
  destruct (perform_run _ _ _ _ _ Hrun) as (part & -> & Hlen & Hall).
  exists part. repeat split; try assumption.
  intros w0.
  destruct op as [e| | | | |level|]; cbn [perform] in *; unfold bind in *.
  - destruct (defined e) eqn:Hd; [|now rewrite invoke_undefined in Hrun].
    destruct (invoke_run this e Hd) as (new & Hnew & _).
    rewrite Hnew in Hrun. unfold ret in Hrun. injection Hrun as _ Hrun.
    apply app_inv_head in Hrun. subst new.
    rewrite Hnew. now exists Vvoid.
  - cbn in Hrun. injection Hrun as _ Hrun. apply app_inv_head in Hrun. subst part.
    eexists. reflexivity.
  - cbn in Hrun. injection Hrun as _ Hrun. apply app_inv_head in Hrun. subst part.
    eexists. reflexivity.
  - cbn in Hrun. injection Hrun as _ Hrun. apply app_inv_head in Hrun. subst part.
    eexists. reflexivity.
  - cbn in Hrun. injection Hrun as _ Hrun. apply app_inv_head in Hrun. subst part.
    eexists. reflexivity.
  - cbn in Hrun. injection Hrun as _ Hrun. apply app_inv_head in Hrun. subst part.
    eexists. reflexivity.
  - unfold Logger.name, ret in Hrun. injection Hrun as _ Hrun.
    rewrite <- (received_nil w) in Hrun at 1.
    apply received_inj in Hrun. subst part.
    exists (Vpointer (Logger.name_ this)). cbn. now rewrite received_nil.
Qed.

End More.

(** ** Enablement predicates *)

(** X1: each enablement predicate asks the backend one query, for the
    logger's own category and with a null reserved pointer, returns the
    answer, and calls no emitting primitive.  [isTraceEnabled],
    [isInfoEnabled], [isWarnEnabled] and [isErrorEnabled] ask for the level
    at which [trace], [info], [warn] and [error] emit, and [isInfoEnabled]
    also for the level of every level-less overload. *)
Theorem enablement_predicates_only_query
    {hdr : LoggingHeader} (this : Logger.t) (level : LogLevel)
    (fmt : pointer) (args : va_list) (w : Backend) :
  let asks (l : LogLevel) :=
    Some (enabled w l (Logger.name_ this),
          received w [log_enabled_call l (Logger.name_ this) nullptr]) in
  Logger.isLevelEnabled this level w = asks level /\
  Logger.isTraceEnabled this w = asks (emit_level (Etrace fmt args)) /\
  Logger.isInfoEnabled this w = asks (emit_level (Einfo fmt args)) /\
  Logger.isWarnEnabled this w = asks (emit_level (Ewarn fmt args)) /\
  Logger.isErrorEnabled this w = asks (emit_level (Eerror fmt args)) /\
  (forall e, levelless e = true ->
             Logger.isInfoEnabled this w = asks (emit_level e)) /\
  (forall l, filter is_emit (calls (received w [log_enabled_call l (Logger.name_ this) nullptr])) =
             filter is_emit (calls w)).
Proof.
  cbv zeta. repeat split.
  - intros e He. destruct e; try discriminate; reflexivity.
  - intros l. cbn [calls received]. rewrite filter_app. cbn. now rewrite app_nil_r.
Qed.

(** ** Guarded emission *)

(** X2: client code that tests [isLevelEnabled] at the call's level before
    an emitting call gets the gate the emitting call itself lacks.  The
    query is the first thing the backend sees; when it answers false
    nothing else happens, whatever the arguments (even a null string for
    [print]); when it answers true the emitting call runs next. *)
Theorem guarded_emission_is_gated
    {hdr : LoggingHeader} (this : Logger.t) (e : Emit) (w : Backend) :
  let query := log_enabled_call (emit_level e) (Logger.name_ this) nullptr in
  guarded this e w =
    (if enabled w (emit_level e) (Logger.name_ this)
     then invoke this e (received w [query])
     else Some (tt, received w [query])) /\
  (enabled w (emit_level e) (Logger.name_ this) = false ->
   exists w',
     guarded this e w = Some (tt, w') /\
     filter is_emit (calls w') = filter is_emit (calls w)) /\
  (enabled w (emit_level e) (Logger.name_ this) = true ->
   defined e = true ->
   exists new,
     guarded this e w = Some (tt, received w (query :: new)) /\
     List.length new = (if null_buffer e then 0 else 1)%nat /\
     Forall (fun c => is_emit c = true /\ call_level c = emit_level e) new).
Proof.
  cbv zeta.
  assert (Hrun : guarded this e w =
    (if enabled w (emit_level e) (Logger.name_ this)
     then invoke this e
            (received w [log_enabled_call (emit_level e) (Logger.name_ this) nullptr])
     else Some (tt, received w
            [log_enabled_call (emit_level e) (Logger.name_ this) nullptr]))).
  { unfold guarded, bind, Logger.isLevelEnabled, log_enabled.
    destruct (enabled w (emit_level e) (Logger.name_ this)); reflexivity. }
  split; [exact Hrun|]. split.
  - intros Hoff. rewrite Hrun, Hoff. eexists. split; [reflexivity|].
    cbn [calls received]. rewrite filter_app. cbn. now rewrite app_nil_r.
  - intros Hon Hdef. rewrite Hrun, Hon.
    destruct (invoke_run this e Hdef) as (new & Hnew & Hall & Hlen).
    exists new. rewrite Hnew, received_app. split; [reflexivity|].
    split; [exact Hlen|].
    eapply Forall_impl; [|exact Hall]. now intros c (Hc & Hl & _).
Qed.

(** ** Attributes *)

(** X3: an attributes record accompanies the structured messages and
    nothing else.  Every primitive call made by [trace], [debug], [info],
    [warn], [error], [log] or the call operator carries the record with
    [size = sizeof(LogAttributes)] and [flags = 0]; every call made by
    [printf], [print], [write] or [dump] carries a null pointer instead. *)
Theorem attributes_only_on_structured_messages
    {hdr : LoggingHeader} (this : Logger.t) (e : Emit) (w w' : Backend) (r : unit) :
  invoke this e w = Some (r, w') ->
  exists new,
    w' = received w new /\
    Forall (fun c =>
      call_attributes c =
        if structured e
        then Some {| size := sizeof_LogAttributes; flags := 0 |}
        else None) new.
Proof.
  intros Hrun.
  destruct (defined e) eqn:Hdef; [|now rewrite invoke_undefined in Hrun].
  destruct e as [fmt args|fmt args|fmt args|fmt args|fmt args|fmt args
                |level fmt args|fmt args|level fmt args|str|level str
                |data sz|level data sz|data sz|level data sz
                |fmt args|level fmt args];
    cbn [invoke structured] in *;
    unfold Logger.trace, Logger.debug, Logger.info, Logger.warn,
      Logger.error, Logger.log, Logger.log_at, Logger.printf, Logger.call,
      Logger.call_at, Logger.print, Logger.write, Logger.dump in Hrun;
    try (first [rewrite log_va_run in Hrun | unfold log_printf_v in Hrun];
         injection Hrun as _ <-; eexists; split; [reflexivity|];
         repeat constructor).
  1, 2:
    destruct str as [s|]; [|discriminate]; cbn in Hdef;
    destruct (strlen_bytes s) as [n|] eqn:Hn; [|discriminate];
    rewrite (print_at_run this _ s n w Hn) in Hrun;
    injection Hrun as _ <-; eexists; split; [reflexivity|]; repeat constructor.
  1, 2:
    destruct data as [d|];
    [ rewrite write_at_run in Hrun; injection Hrun as _ <-;
      eexists; split; [reflexivity|]; repeat constructor
    | cbn in Hrun; injection Hrun as _ <-;
      exists []; split; [now rewrite received_nil | constructor] ].
  1, 2:
    destruct data as [d|];
    [ rewrite dump_at_run in Hrun; injection Hrun as _ <-;
      eexists; split; [reflexivity|]; repeat constructor
    | cbn in Hrun; injection Hrun as _ <-;
      exists []; split; [now rewrite received_nil | constructor] ].
Qed.

Lemma attributes_only_on_structured_messages_witness :
  exists new,
    received (threshold_backend 40) [log_write_call 30 (literal "net") (literal "hi") 2 None] =
      received (threshold_backend 40) new /\
    Forall (fun c => call_attributes c = None) new.
Proof.
  apply (attributes_only_on_structured_messages (hdr := example_header)
           net_logger (Eprint (literal "hi")) (threshold_backend 40) _ tt).
  reflexivity.
Defined.

(** ** print and the first NUL *)

(** X4: [print] logs the bytes before the first NUL and no more.  The one
    [log_write] call of [print(level, s)] has size [n] exactly when [s] is
    [n] non-NUL bytes followed by a NUL; what follows that NUL plays no
    part, and for the empty string the call is made with size 0. *)
Theorem print_logs_up_to_first_nul
    (this : Logger.t) (level : LogLevel) (s : buffer) (n : N) (w : Backend) :
  Logger.print_at this level (Some s) w =
    Some (tt, received w [log_write_call level (Logger.name_ this) (Some s) n None])
  <->
  exists pre post,
    s = pre ++ x00 :: post /\ ~ In x00 pre /\ n = N.of_nat (List.length pre).
Proof.
  split.
  - intros Hrun.
    destruct (strlen_bytes s) as [m|] eqn:Hm.
    + rewrite (print_at_run this level s m w Hm) in Hrun.
      injection Hrun as Hrun. apply app_inv_head in Hrun.
      injection Hrun as ->. now apply strlen_bytes_split.
    + rewrite print_at_undefined in Hrun; [discriminate|].
      cbn. now rewrite Hm.
  - intros (pre & post & -> & Hpre & ->).
    apply print_at_run. now apply strlen_literal_defined.
Qed.

(** ** Programs *)

(** X6: no call crosses categories, and a program's calls come in program
    order.  When a program runs, the backend state is the one it started
    from followed by one group of calls for each member-function call of
    the program, in the order of the program (constructing a logger makes
    none).  Each group holds at most one call, carries the category of the
    very logger the member function was called on, and is exactly what
    that member call makes when run on its own from any backend state. *)
Theorem program_calls_stay_in_category
    {hdr : LoggingHeader} (prog : list Stmt) :
  forall (objs objs' : list Logger.t) (w w' : Backend),
  exec objs prog w = Some (objs', w') ->
  exists parts : list (list BackendCall),
    w' = received w (List.concat parts) /\
    Forall2
      (fun (m : Logger.t * Op) (part : list BackendCall) =>
         (List.length part <= 1)%nat /\
         Forall (fun c => call_category c = Logger.name_ (fst m)) part /\
         forall w0, exists v,
           perform (fst m) (snd m) w0 = Some (v, received w0 part))
      (member_call_list objs prog) parts.
Proof.
  induction prog as [|s rest IH]; intros objs objs' w w' Hrun.
  - cbn in Hrun. injection Hrun as _ <-.
    exists []. split; [now rewrite received_nil | constructor].
  - cbn [exec] in Hrun. unfold bind in Hrun.
    destruct s as [name|obj op|src|dst src]; cbn [exec_stmt] in Hrun.
    + unfold ret in Hrun. cbn [member_call_list].
      exact (IH _ _ _ _ Hrun).
    + cbn [member_call_list].
      destruct (nth_error objs obj) as [this|]; [|discriminate].
      unfold bind in Hrun.
      destruct (perform this op w) as [[v w1]|] eqn:Hop; [|discriminate].
      unfold ret in Hrun.
      destruct (perform_alone _ _ _ _ _ Hop) as (part & -> & Hlen & Hcat & Halone).
      destruct (IH _ _ _ _ Hrun) as (parts & -> & Hparts).
      exists (part :: parts). split.
      * cbn [List.concat]. now rewrite received_app.
      * constructor; [|exact Hparts]. cbn [fst snd]. repeat split; assumption.
    + unfold copy_constructor, ill_formed in Hrun. discriminate.
    + unfold copy_assignment, ill_formed in Hrun. discriminate.
Qed.

Lemma program_calls_stay_in_category_witness :
  exists objs' w',
    exec (hdr := example_header) [app_logger] example_program (threshold_backend 40) =
      Some (objs', w') /\
    exists parts : list (list BackendCall),
      w' = received (threshold_backend 40) (List.concat parts) /\
      Forall2
        (fun (m : Logger.t * Op) (part : list BackendCall) =>
           (List.length part <= 1)%nat /\
           Forall (fun c => call_category c = Logger.name_ (fst m)) part /\
           forall w0, exists v,
             perform (hdr := example_header) (fst m) (snd m) w0 =
               Some (v, received w0 part))
        (member_call_list (hdr := example_header) [app_logger] example_program) parts.
Proof.
  do 2 eexists. split; [reflexivity|].
  eapply (program_calls_stay_in_category (hdr := example_header) example_program
            [app_logger] _ (threshold_backend 40)).
  reflexivity.
Defined.
